(** * CloserThanYouThink: the temporal bucketizer of [data_transformation.py]

    A shallow embedding of [split_call_by_hour] and
    [transform_for_time_heatmap], and the properties of the specification
    checked against it.

    Modelling conventions.
    - A pandas [Timestamp] is its integer count of nanoseconds since
      1970-01-01 00:00 on the wall clock of its time-zone view; a
      [Timedelta] is a difference of two of them.
    - A Python [float] is the rational number it denotes, kept in lowest
      terms ([Qred]) so that equal values are equal terms.  Rounding is not
      modelled.
    - A pandas data frame is the list of its rows; the frame produced by
      [groupby(...).agg(sum)] has one row per key and is only ever looked up
      by key, so it is a finite map from keys to sums.

    The last part covers the column computations of the dashboard script
    [main.py] that feed its charts: week starts, day names and hour
    labels. *)

From Stdlib Require Import ZArith QArith Qabs Lia List Permutation.
From stdpp Require Import base option list gmap strings pretty.
Import ListNotations.

Open Scope Z_scope.

(** ** Timestamps and their calendar fields *)

Module Time.

Definition Timestamp := Z.
Definition Timedelta := Z.

Definition ns_per_second : Z := 1000000000.
Definition ns_per_hour : Z := 3600 * ns_per_second.
Definition ns_per_day : Z := 24 * ns_per_hour.

(** Days since the civil date 1970-01-01 (proleptic Gregorian calendar);
    only used to write timestamps of examples legibly. *)
Definition days_from_civil (y m d : Z) : Z :=
  let y' := if m <=? 2 then y - 1 else y in
  let era := y' / 400 in
  let yoe := y' - era * 400 in
  let mp := (m + 9) mod 12 in
  let doy := (153 * mp + 2) / 5 + d - 1 in
  let doe := yoe * 365 + yoe / 4 - yoe / 100 + doy in
  era * 146097 + doe - 719468.

(** [pd.Timestamp(year, month, day, hour, minute, second)]. *)
Definition mk (y m d hh mm ss : Z) : Timestamp :=
  days_from_civil y m d * ns_per_day
  + hh * ns_per_hour + mm * (60 * ns_per_second) + ss * ns_per_second.

(** [.dt.dayofweek]: Monday is 0 and Sunday is 6.  Day 0 of the epoch,
    1970-01-01, was a Thursday. *)
Definition dayofweek (t : Timestamp) : Z := (t / ns_per_day + 3) mod 7.

(** [.dt.hour] *)
Definition hour (t : Timestamp) : Z := (t mod ns_per_day) / ns_per_hour.

(** Offset of a timestamp inside its wall-clock hour; zero exactly on an
    hour boundary. *)
Definition offset_in_hour (t : Timestamp) : Z := t mod ns_per_hour.

(** [pd.date_range(start=s, end=e, freq='h')]: the points
    [s, s + 1h, s + 2h, ...] that do not exceed [e]; the first point is
    [s] itself, whatever its minute offset, and the range is empty when
    [e < s]. *)
Definition date_range (s e : Timestamp) : list Timestamp :=
  map (fun i : nat => s + Z.of_nat i * ns_per_hour)
      (seq 0 (Z.to_nat ((e - s) / ns_per_hour + 1))).

End Time.

Import Time.

(** ** Floats *)

Module Float.

Definition fdiv (x y : Q) : Q := Qred (x / y).
Definition fadd (x y : Q) : Q := Qred (x + y).

(** [Timedelta.total_seconds()] *)
Definition total_seconds (d : Timedelta) : Q :=
  Qred (Qmake d 1000000000).

(** The [sum] aggregation of a column of floats. *)
Definition fsum (l : list Q) : Q := foldl fadd 0%Q l.

End Float.

Import Float.

(** ** The interval splitter *)

Record Contribution := mkContribution {
  time_bucket : Timestamp;
  minutes : Q;
  time_zone : string
}.

(** The pairs [(time_range[i], time_range[i + 1])] visited by
    [for i in range(len(time_range) - 1)]. *)
Definition intervals (time_range : list Timestamp)
  : list (Timestamp * Timestamp) :=
  zip time_range (tail time_range).

(** One iteration of the loop body: the contribution appended for the
    interval, if any. *)
Definition split_interval (start_time end_time : Timestamp) (tz : string)
    (iv : Timestamp * Timestamp) : list Contribution :=
  let '(start_interval, end_interval) := iv in
  let start_in_this_hour := Z.max start_time start_interval in
  let end_in_this_hour := Z.min end_time end_interval in
  let minutes_in_this_hour :=
    fdiv (total_seconds (end_in_this_hour - start_in_this_hour)) 60 in
  if Qlt_le_dec 0 minutes_in_this_hour
  then [mkContribution start_in_this_hour minutes_in_this_hour tz]
  else [].

Definition split_call_by_hour (start_time end_time : Timestamp)
    (tz : string) : list Contribution :=
  let time_range := date_range start_time end_time in
  flat_map (split_interval start_time end_time tz) (intervals time_range).

Definition total_minutes (cs : list Contribution) : Q :=
  fsum (map minutes cs).

(** Duration of a call, in minutes. *)
Definition duration_minutes (start_time end_time : Timestamp) : Q :=
  fdiv (total_seconds (end_time - start_time)) 60.

(** ** The grid aggregator *)

(** Outcome of a Python call: a returned value or a raised [KeyError]. *)
Inductive Raises (A : Type) : Type :=
| Returns (a : A)
| KeyError (key : string).
Arguments Returns {A} a.
Arguments KeyError {A} key.

#[global] Instance Raises_ret : MRet Raises := fun A a => Returns a.

#[global] Instance Raises_bind : MBind Raises := fun A B k r =>
  match r with
  | Returns a => k a
  | KeyError key => KeyError key
  end.

(** The four timestamp columns of a row of [df_combined]. *)
Record Row := mkRow {
  Start_Datetime_SG : Timestamp;
  End_Datetime_SG : Timestamp;
  Start_Datetime_NZ : Timestamp;
  End_Datetime_NZ : Timestamp
}.

(** A row of the returned frame; [None] is the [NaN] a left merge leaves
    where the right frame has no matching key. *)
Record GridRow := mkGridRow {
  Day_of_Week : Z;
  Hour : Z;
  minutes_SG : option Q;
  minutes_NZ : option Q
}.

(** [frame['time_bucket']]: [pd.DataFrame([])] has no columns at all, so
    selecting the column of an empty frame raises. *)
Definition getitem_time_bucket (frame : list Contribution)
  : Raises (list Timestamp) :=
  match frame with
  | [] => KeyError "time_bucket"
  | _ => Returns (map time_bucket frame)
  end.

(** [(s.dt.dayofweek + 1) % 7] *)
Definition Weekday_of (t : Timestamp) : Z := (dayofweek t + 1) mod 7.

(** A contribution together with its [Weekday] and [Hour] columns. *)
Definition Keyed : Type := Z * Z * Q.

Definition add_weekday_hour (frame : list Contribution)
  : Raises (list Keyed) :=
  buckets ← getitem_time_bucket frame;
  Returns (zip_with (fun t c => (Weekday_of t, hour t, minutes c))
                    buckets frame).

(** One step of the group-wise sum: add the row's minutes to the running
    total of its [(Weekday, Hour)] group. *)
Definition accumulate (acc : gmap (Z * Z) Q) (r : Keyed) : gmap (Z * Z) Q :=
  let '(wd, h, m) := r in
  partial_alter (fun tot => Some (fadd (default 0%Q tot) m)) (wd, h) acc.

(** [frame.groupby(['Weekday', 'Hour']).agg({'minutes': 'sum'})] *)
Definition groupby_sum (frame : list Keyed) : gmap (Z * Z) Q :=
  foldl accumulate ∅ frame.

Definition days_of_week : list Z := [0; 1; 2; 3; 4; 5; 6].
Definition hours_of_day : list Z := map Z.of_nat (seq 0 24).

(** [itertools.product(days_of_week, hours_of_day)] *)
Definition week_combinations : list (Z * Z) :=
  flat_map (fun d => map (pair d) hours_of_day) days_of_week.

(** The two left merges on [(Day_of_Week, Hour)]. *)
Definition merge_left (sg_agg nz_agg : gmap (Z * Z) Q) : list GridRow :=
  map (fun k => mkGridRow k.1 k.2 (sg_agg !! k) (nz_agg !! k))
      week_combinations.

Definition sg_minutes_of (df : list Row) : list Contribution :=
  flat_map (fun row =>
    split_call_by_hour (Start_Datetime_SG row) (End_Datetime_SG row) "SG") df.

Definition nz_minutes_of (df : list Row) : list Contribution :=
  flat_map (fun row =>
    split_call_by_hour (Start_Datetime_NZ row) (End_Datetime_NZ row) "NZ") df.

Definition transform_for_time_heatmap (df_combined : list Row)
  : Raises (list GridRow) :=
  let sg_minutes := sg_minutes_of df_combined in
  let nz_minutes := nz_minutes_of df_combined in
  sg_keyed ← add_weekday_hour sg_minutes;
  nz_keyed ← add_weekday_hour nz_minutes;
  let sg_agg := groupby_sum sg_keyed in
  let nz_agg := groupby_sum nz_keyed in
  Returns (merge_left sg_agg nz_agg).

(** A call record whose two views show the same wall-clock times. *)
Definition same_view (s e : Timestamp) : Row := mkRow s e s e.

(** ** Auxiliary notions used to state the properties *)

(** Number of whole hours that fit between the two instants. *)
Definition whole_hours (start_time end_time : Timestamp) : nat :=
  Z.to_nat ((end_time - start_time) / ns_per_hour).

(** The [i]-th point of the range generated from [start_time]. *)
Definition nth_point (start_time : Timestamp) (i : nat) : Timestamp :=
  start_time + Z.of_nat i * ns_per_hour.

(** The instants used in the examples: Monday 8 January 2024. *)
Definition at_time (hh mm : Z) : Timestamp := mk 2024 1 8 hh mm 0.

(** The row of the keyed frame made from a contribution. *)
Definition keyed_of (c : Contribution) : Keyed :=
  (Weekday_of (time_bucket c), hour (time_bucket c), minutes c).

(** What a cell of the grouped frame holds: nothing when no row has the
    key, otherwise the sum of the minutes of the rows that have it, taken
    in frame order. *)
Definition cell_total (k : Z * Z) (frame : list Keyed) : option Q :=
  match filter (fun r : Keyed => r.1 = k) frame with
  | [] => None
  | g => Some (fsum (g.*2))
  end.

(** ** Column computations of the dashboard script [main.py] *)

(** [all_days], the row labels of the time-of-day heat map. *)
Definition all_days : list string :=
  ["Sun"; "Mon"; "Tue"; "Wed"; "Thu"; "Fri"; "Sat"].

(** Python's [l[x]] on a list: a negative index counts from the end, and
    an index outside [-len(l) .. len(l) - 1] raises [IndexError], here
    [None]. *)
Definition getitem {A : Type} (l : list A) (x : Z) : option A :=
  if 0 <=? x then l !! Z.to_nat x
  else if - Z.of_nat (length l) <=? x
       then l !! Z.to_nat (Z.of_nat (length l) + x)
       else None.

(** [df_day_hour["Day_of_Week"].map(lambda x: all_days[x])], for one row. *)
Definition Day_Name (r : GridRow) : option string :=
  getitem all_days (Day_of_Week r).

(** [pd.to_timedelta(n, unit='d')] *)
Definition to_timedelta_days (n : Z) : Timedelta := n * ns_per_day.

(** The calendar heat map's [Week_Start_Date]:
    [date - pd.to_timedelta((date.dt.dayofweek + 1) % 7, unit='d')]. *)
Definition Week_Start_Date (date : Timestamp) : Timestamp :=
  date - to_timedelta_days (Weekday_of date).

(** The trend chart's weekly [Interval]:
    [date - pd.to_timedelta(date.dt.dayofweek + 1, unit='d')]. *)
Definition trend_week_interval (date : Timestamp) : Timestamp :=
  date - to_timedelta_days (dayofweek date + 1).

(** [h % 12 or 12] *)
Definition hour12 (h : Z) : Z :=
  if h mod 12 =? 0 then 12 else h mod 12.

(** [f"{h % 12 or 12} {'AM' if h < 12 else 'PM'}"] *)
Definition tick_label (h : Z) : string :=
  pretty (hour12 h) +:+ " " +:+ (if h <? 12 then "AM" else "PM").

(** [[... for h in range(24)]] *)
Definition ticktext : list string :=
  map tick_label (map Z.of_nat (seq 0 24)).

(** ** Further notions used to state the properties *)

(** A contribution moved by a fixed amount of time. *)
Definition shift_bucket (d : Timedelta) (c : Contribution) : Contribution :=
  mkContribution (time_bucket c + d) (minutes c) (time_zone c).

(** Number of rows of a keyed frame that fall in a cell. *)
Definition cell_count (k : Z * Z) (frame : list Keyed) : nat :=
  length (filter (fun r : Keyed => r.1 = k) frame).

(** A float that is its own lowest-terms form. *)
Definition canonical (q : Q) : Prop := Qred q = q.

(** The minutes of a cell read as a number, [NaN] counting for nothing, as
    [sum] skips it. *)
Definition cell_minutes (cell : option Q) : Q := default 0%Q cell.

(** Exact sum of a list of rationals, without reduction. *)
Definition Qsum (l : list Q) : Q := fold_right Qplus 0%Q l.

(** The part of a keyed row's minutes that goes to cell [k]. *)
Definition share (k : Z * Z) (r : Keyed) : Q :=
  if decide (r.1 = k) then r.2 else 0%Q.

(** * Properties *)

(** ** Sanity checks of the model on known dates *)

Example dayofweek_known :
  dayofweek (mk 2024 1 7 10 0 0) = 6 /\ dayofweek (mk 2024 1 8 0 0 0) = 0 /\
  dayofweek (mk 1970 1 1 0 0 0) = 3 /\ dayofweek (mk 1969 12 28 23 59 59) = 6 /\
  hour (mk 2024 1 7 10 30 0) = 10 /\ hour (mk 1969 12 28 23 59 59) = 23.
Proof. vm_compute. repeat split; reflexivity. Qed.

Example heatmap_one_hour_call :
  (rows ← transform_for_time_heatmap
            [same_view (mk 2024 1 7 10 0 0) (mk 2024 1 7 11 0 0)];
   Returns (length rows,
            filter (fun r => bool_decide (is_Some (minutes_SG r))) rows)) =
  Returns (168%nat, [mkGridRow 0 10 (Some 60%Q) (Some 60%Q)]).
Proof. vm_compute. reflexivity. Qed.

(** ** Float arithmetic *)

Lemma fadd_comm (x y : Q) : fadd x y = fadd y x.
Proof. unfold fadd. apply Qred_complete, Qplus_comm. Qed.

Lemma fadd_assoc (x y z : Q) : fadd (fadd x y) z = fadd x (fadd y z).
Proof.
  unfold fadd. apply Qred_complete.
  rewrite !Qred_correct. symmetry. apply Qplus_assoc.
Qed.

Lemma fadd_swap (a x y : Q) : fadd (fadd a x) y = fadd (fadd a y) x.
Proof. rewrite !fadd_assoc. f_equal. apply fadd_comm. Qed.

(** One hour, as the splitter measures it. *)
Lemma minutes_of_one_hour : fdiv (total_seconds ns_per_hour) 60 = 60%Q.
Proof. vm_compute. reflexivity. Qed.

(** ** The shape of the generated intervals *)

Section Intervals.

Variables start_time end_time : Timestamp.

Local Abbreviation hours := (whole_hours start_time end_time).
Local Abbreviation point := (nth_point start_time).

Lemma zip_points_snoc (k n : nat) :
  zip (map point (seq k (S n))) (map point (seq (S k) n)) =
  map (fun i => (point i, point (S i))) (seq k n).
Proof.
  revert k. induction n as [|n IH]; intros k; [reflexivity|].
  change (seq k (S (S n))) with (k :: seq (S k) (S n)).
  change (seq (S k) (S n)) with (S k :: seq (S (S k)) n) at 2.
  simpl map at 1 2. simpl zip.
  change (seq k (S n)) with (k :: seq (S k) n). simpl map.
  f_equal. apply IH.
Qed.

Lemma date_range_points :
  0 <= (end_time - start_time) / ns_per_hour ->
  date_range start_time end_time = map point (seq 0 (S hours)).
Proof.
  intros Hq. unfold date_range, whole_hours.
  replace (Z.to_nat ((end_time - start_time) / ns_per_hour + 1))
    with (S (Z.to_nat ((end_time - start_time) / ns_per_hour))) by lia.
  reflexivity.
Qed.

Lemma date_range_backwards :
  (end_time - start_time) / ns_per_hour < 0 ->
  date_range start_time end_time = [] /\ hours = 0%nat.
Proof.
  intros Hq. unfold date_range, whole_hours.
  replace (Z.to_nat ((end_time - start_time) / ns_per_hour + 1))
    with 0%nat by lia.
  split; [reflexivity | lia].
Qed.

(** The loop visits the intervals [start + i h, start + (i+1) h) for
    [i] below the number of whole hours of the call. *)
Lemma intervals_date_range :
  intervals (date_range start_time end_time) =
  map (fun i => (point i, point (S i))) (seq 0 hours).
Proof.
  destruct (Z_lt_le_dec ((end_time - start_time) / ns_per_hour) 0) as [Hq|Hq].
  - destruct (date_range_backwards Hq) as [-> ->]. reflexivity.
  - rewrite (date_range_points Hq). unfold intervals.
    change (tail (map point (seq 0 (S hours))))
      with (map point (seq 1 hours)).
    apply zip_points_snoc.
Qed.

Lemma nth_point_fits (i : nat) :
  (i < hours)%nat -> point (S i) <= end_time.
Proof.
  unfold whole_hours, nth_point. intros Hi.
  assert (Hh : 0 < ns_per_hour) by reflexivity.
  pose proof (Z.mul_div_le (end_time - start_time) ns_per_hour Hh) as Hle.
  assert (Z.of_nat (S i) <= (end_time - start_time) / ns_per_hour) by lia.
  nia.
Qed.

Lemma split_interval_full (tz : string) (i : nat) :
  (i < hours)%nat ->
  split_interval start_time end_time tz (point i, point (S i)) =
  [mkContribution (point i) 60 tz].
Proof.
  intros Hi. pose proof (nth_point_fits i Hi) as Hfit.
  unfold split_interval.
  assert (Hmax : Z.max start_time (point i) = point i).
  { unfold nth_point. assert (0 < ns_per_hour) by reflexivity. nia. }
  assert (Hmin : Z.min end_time (point (S i)) = point (S i)) by lia.
  rewrite Hmax, Hmin.
  replace (point (S i) - point i) with ns_per_hour
    by (unfold nth_point; lia).
  rewrite minutes_of_one_hour. reflexivity.
Qed.

Lemma flat_map_singletons {A B C} (p : A -> B) (f : B -> list C)
    (g : A -> C) (l : list A) :
  (forall x, In x l -> f (p x) = [g x]) ->
  flat_map f (map p l) = map g l.
Proof.
  induction l as [|a l IH]; intros Hf; [reflexivity|].
  simpl. rewrite (Hf a) by (left; reflexivity).
  simpl. f_equal. apply IH. intros x Hx. apply Hf. right. exact Hx.
Qed.

(** Closed form of the splitter: one contribution of sixty minutes per
    whole hour elapsed since [start_time]. *)
Lemma split_call_by_hour_closed (tz : string) :
  split_call_by_hour start_time end_time tz =
  map (fun i => mkContribution (point i) 60 tz) (seq 0 hours).
Proof.
  unfold split_call_by_hour. rewrite intervals_date_range.
  apply flat_map_singletons. intros i Hi.
  apply split_interval_full. apply in_seq in Hi. lia.
Qed.

End Intervals.

(** ** The interval splitter *)

Lemma whole_hours_backwards (s e : Timestamp) :
  e <= s -> whole_hours s e = 0%nat.
Proof.
  intros Hle. unfold whole_hours.
  assert (Hh : 0 < ns_per_hour) by reflexivity.
  assert ((e - s) / ns_per_hour <= 0)
    by (apply Z.div_le_upper_bound; lia).
  lia.
Qed.

Lemma whole_hours_short (s e : Timestamp) :
  e - s < ns_per_hour -> whole_hours s e = 0%nat.
Proof.
  intros Hlt. unfold whole_hours.
  assert (Hh : 0 < ns_per_hour) by reflexivity.
  assert ((e - s) / ns_per_hour < 1)
    by (apply Z.div_lt_upper_bound; lia).
  lia.
Qed.

(** A call shorter than one hour contributes nothing at all. *)
Lemma split_call_by_hour_short (s e : Timestamp) (tz : string) :
  e - s < ns_per_hour -> split_call_by_hour s e tz = [].
Proof.
  intros Hlt. rewrite split_call_by_hour_closed, whole_hours_short by exact Hlt.
  reflexivity.
Qed.

Lemma Qred_inject_Z (z : Z) : Qred (inject_Z z) = inject_Z z.
Proof.
  unfold Qred, inject_Z.
  pose proof (Z.ggcd_gcd z 1) as Hg.
  pose proof (Z.ggcd_correct_divisors z 1) as Hd.
  destruct (Z.ggcd z 1) as [g [a b]]. simpl in Hg.
  rewrite Z.gcd_1_r in Hg. subst g. destruct Hd as [Ha Hb].
  rewrite Z.mul_1_l in Ha, Hb. subst a b. reflexivity.
Qed.

Lemma fadd_inject_Z (a b : Z) :
  fadd (inject_Z a) (inject_Z b) = inject_Z (a + b).
Proof.
  unfold fadd. rewrite <- inject_Z_plus. apply Qred_inject_Z.
Qed.

Lemma fsum_sixties (acc : Z) (n : nat) :
  foldl fadd (inject_Z acc) (repeat 60%Q n) = inject_Z (acc + 60 * Z.of_nat n).
Proof.
  revert acc. induction n as [|n IH]; intros acc.
  - simpl. f_equal. lia.
  - simpl repeat. simpl foldl.
    change 60%Q with (inject_Z 60). rewrite fadd_inject_Z.
    change (inject_Z 60) with 60%Q. rewrite IH. f_equal. lia.
Qed.

(** What the splitter emits adds up to sixty minutes per whole hour of the
    call; the remainder of the call is not accounted for. *)
Lemma total_minutes_whole_hours (s e : Timestamp) (tz : string) :
  total_minutes (split_call_by_hour s e tz) =
  inject_Z (60 * Z.of_nat (whole_hours s e)).
Proof.
  rewrite split_call_by_hour_closed. unfold total_minutes, fsum.
  rewrite map_map. simpl.
  replace (map (fun _ : nat => 60%Q) (seq 0 (whole_hours s e)))
    with (repeat 60%Q (whole_hours s e)).
  - apply (fsum_sixties 0).
  - generalize 0%nat. induction (whole_hours s e) as [|n IH]; intros k;
      [reflexivity|]. simpl. f_equal. apply IH.
Qed.

(** A strictly positive number of minutes comes from a strictly positive
    time difference. *)
Lemma minutes_positive (d : Timedelta) :
  (0 < fdiv (total_seconds d) 60)%Q -> 0 < d.
Proof.
  unfold fdiv, total_seconds. rewrite !Qred_correct.
  unfold Qlt, Qdiv, Qmult, Qinv. simpl. lia.
Qed.

(** C1, minute conservation.  The call from 10:30 to 12:15 lasts 105
    minutes, but the contributions emitted for it add up to 60 minutes: the
    45 minutes after the last whole hour are lost, far beyond the 1e-6
    tolerance. *)
Theorem minute_conservation_broken :
  at_time 10 30 < at_time 12 15 /\
  duration_minutes (at_time 10 30) (at_time 12 15) = 105%Q /\
  total_minutes (split_call_by_hour (at_time 10 30) (at_time 12 15) "SG")
    = 60%Q /\
  ~ (Qabs (total_minutes
             (split_call_by_hour (at_time 10 30) (at_time 12 15) "SG")
           - duration_minutes (at_time 10 30) (at_time 12 15))
     <= 1 # 1000000)%Q.
Proof.
  assert (Hd : duration_minutes (at_time 10 30) (at_time 12 15) = 105%Q)
    by (vm_compute; reflexivity).
  assert (Ht : total_minutes
                 (split_call_by_hour (at_time 10 30) (at_time 12 15) "SG")
               = 60%Q) by (vm_compute; reflexivity).
  split; [vm_compute; reflexivity|].
  split; [exact Hd|]. split; [exact Ht|].
  rewrite Ht, Hd. intros Hclose. vm_compute in Hclose.
  apply Hclose. reflexivity.
Qed.

(** C2, cross-hour split.  The call from 10:30 to 12:15 yields a single
    contribution, 60 minutes at 10:30, not the three contributions
    30 min at 10:00, 60 min at 11:00 and 15 min at 12:00: the generated
    range starts at the call's start, not at the hour containing it, and
    stops at the last point not after the call's end. *)
Theorem cross_hour_split_single (tz : string) :
  date_range (at_time 10 30) (at_time 12 15) = [at_time 10 30; at_time 11 30]
  /\ split_call_by_hour (at_time 10 30) (at_time 12 15) tz =
     [mkContribution (at_time 10 30) 60 tz].
Proof.
  split; [vm_compute; reflexivity|].
  rewrite split_call_by_hour_closed.
  replace (whole_hours (at_time 10 30) (at_time 12 15)) with 1%nat
    by (vm_compute; reflexivity).
  unfold nth_point. simpl. rewrite Z.add_0_r. reflexivity.
Qed.

(** C4, as the code has it: every contribution comes from an iteration of
    the loop, over an interval [(a, b)] of the generated range; and for
    whichever interval produced it, its bucket is the later of the call's
    start and the start [a] of that very interval, so it lies inside the
    interval and is not before the call's start, and its minutes are the
    positive overlap of the call with the interval. *)
Theorem bucket_is_overlap_start (s e : Timestamp) (tz : string)
    (c : Contribution) :
  In c (split_call_by_hour s e tz) ->
  (exists a b, In (a, b) (intervals (date_range s e)) /\
               In c (split_interval s e tz (a, b))) /\
  (forall a b, In c (split_interval s e tz (a, b)) ->
     time_bucket c = Z.max s a /\
     a <= time_bucket c < b /\ s <= time_bucket c /\
     minutes c = fdiv (total_seconds (Z.min e b - Z.max s a)) 60 /\
     (0 < minutes c)%Q).
Proof.
  unfold split_call_by_hour. intros Hc. split.
  - apply in_flat_map in Hc. destruct Hc as [[a b] [Hiv Hc]].
    exists a, b. split; assumption.
  - clear Hc. intros a b Hc. unfold split_interval in Hc.
    destruct (Qlt_le_dec 0 _) as [Hpos|Hle]; [|contradiction].
    destruct Hc as [<-|[]]. simpl.
    pose proof (minutes_positive _ Hpos) as Hd.
    split; [reflexivity|]. split; [lia|]. split; [lia|].
    split; [reflexivity | exact Hpos].
Qed.

Lemma bucket_is_overlap_start_witness :
  (exists a b,
     In (a, b) (intervals (date_range (at_time 10 30) (at_time 13 45))) /\
     In (mkContribution (at_time 12 30) 60 "SG")
        (split_interval (at_time 10 30) (at_time 13 45) "SG" (a, b))) /\
  (time_bucket (mkContribution (at_time 12 30) 60 "SG")
     = Z.max (at_time 10 30) (at_time 12 30) /\
   at_time 12 30 <= time_bucket (mkContribution (at_time 12 30) 60 "SG")
     < at_time 13 30 /\
   at_time 10 30 <= time_bucket (mkContribution (at_time 12 30) 60 "SG") /\
   minutes (mkContribution (at_time 12 30) 60 "SG")
     = fdiv (total_seconds (Z.min (at_time 13 45) (at_time 13 30)
                            - Z.max (at_time 10 30) (at_time 12 30))) 60 /\
   (0 < minutes (mkContribution (at_time 12 30) 60 "SG"))%Q).
Proof.
  destruct (bucket_is_overlap_start (at_time 10 30) (at_time 13 45) "SG"
              (mkContribution (at_time 12 30) 60 "SG")) as [Hex Hall].
  - vm_compute. right. right. left. reflexivity.
  - split; [exact Hex|].
    apply (Hall (at_time 12 30) (at_time 13 30)).
    vm_compute. left. reflexivity.
Defined.

(** C4 as stated fails: the call from 10:30 to 11:30 ends after it starts,
    and its contribution has bucket 10:30, thirty minutes off the hour. *)
Lemma bucket_alignment_counterexample :
  at_time 10 30 < at_time 11 30 /\
  exists c, In c (split_call_by_hour (at_time 10 30) (at_time 11 30) "SG") /\
            offset_in_hour (time_bucket c) <> 0.
Proof.
  split; [vm_compute; reflexivity|].
  exists (mkContribution (at_time 10 30) 60 "SG"). split.
  - vm_compute. left. reflexivity.
  - vm_compute. discriminate.
Qed.

(** C6, single-hour calls.  The call from 10:15 to 10:45 lies inside one
    wall-clock hour and ends after it starts, yet yields no contribution
    where exactly one is expected. *)
Theorem single_hour_call_dropped (tz : string) :
  at_time 10 15 < at_time 10 45 /\
  hour (at_time 10 15) = hour (at_time 10 45) /\
  split_call_by_hour (at_time 10 15) (at_time 10 45) tz = [].
Proof.
  split; [vm_compute; reflexivity|].
  split; [vm_compute; reflexivity|].
  apply split_call_by_hour_short. vm_compute. reflexivity.
Qed.

(** The boundary case named in C6 does hold: the call from 10:00:00 to
    11:00:00 yields one contribution, 60 minutes at 10:00. *)
Lemma boundary_exactness (tz : string) :
  split_call_by_hour (at_time 10 0) (at_time 11 0) tz =
  [mkContribution (at_time 10 0) 60 tz].
Proof.
  rewrite split_call_by_hour_closed.
  replace (whole_hours (at_time 10 0) (at_time 11 0)) with 1%nat
    by (vm_compute; reflexivity).
  unfold nth_point. simpl. rewrite Z.add_0_r. reflexivity.
Qed.

(** C8, degenerate and invalid intervals: when the end is not after the
    start the splitter returns the empty list; it has no raising path. *)
Theorem degenerate_interval_empty (s e : Timestamp) (tz : string) :
  e <= s -> split_call_by_hour s e tz = [].
Proof.
  intros Hle. rewrite split_call_by_hour_closed, whole_hours_backwards
    by exact Hle.
  reflexivity.
Qed.

Lemma degenerate_interval_empty_witness :
  split_call_by_hour (at_time 10 30) (at_time 10 30) "SG" = [] /\
  split_call_by_hour (at_time 12 15) (at_time 10 30) "NZ" = [].
Proof.
  split.
  - apply (degenerate_interval_empty (at_time 10 30) (at_time 10 30) "SG").
    vm_compute. discriminate.
  - apply (degenerate_interval_empty (at_time 12 15) (at_time 10 30) "NZ").
    vm_compute. discriminate.
Defined.

(** C10, bound on contributions: every emitted contribution has more than
    0 and at most 60 minutes, and carries the time zone passed in. *)
Theorem contribution_bounds (s e : Timestamp) (tz : string)
    (c : Contribution) :
  In c (split_call_by_hour s e tz) ->
  (0 < minutes c)%Q /\ (minutes c <= 60)%Q /\ time_zone c = tz.
Proof.
  rewrite split_call_by_hour_closed. intros Hc.
  apply in_map_iff in Hc. destruct Hc as [i [<- _]]. simpl.
  split; [reflexivity|]. split; [discriminate | reflexivity].
Qed.

Lemma contribution_bounds_witness :
  (0 < minutes (mkContribution (at_time 11 30) 60 "NZ"))%Q /\
  (minutes (mkContribution (at_time 11 30) 60 "NZ") <= 60)%Q /\
  time_zone (mkContribution (at_time 11 30) 60 "NZ") = "NZ".
Proof.
  apply (contribution_bounds (at_time 10 30) (at_time 12 45) "NZ").
  vm_compute. right. left. reflexivity.
Defined.

(** ** The grid aggregator *)

Lemma add_weekday_hour_unfold (frame : list Contribution) :
  add_weekday_hour frame =
  match frame with
  | [] => KeyError "time_bucket"
  | _ => Returns (map keyed_of frame)
  end.
Proof.
  destruct frame as [|c frame]; [reflexivity|].
  unfold add_weekday_hour, getitem_time_bucket. simpl. do 2 f_equal.
  induction frame as [|c' frame IH]; [reflexivity|].
  simpl. f_equal. exact IH.
Qed.

Lemma foldl_fadd_perm (l l' : list Q) :
  l ≡ₚ l' -> forall a, foldl fadd a l = foldl fadd a l'.
Proof.
  induction 1 as [|x l l' _ IH|x y l|l l' l'' _ IH1 _ IH2]; intros a; simpl.
  - reflexivity.
  - apply IH.
  - rewrite fadd_swap. reflexivity.
  - rewrite IH1. apply IH2.
Qed.

Lemma accumulate_lookup (acc : gmap (Z * Z) Q) (r : Keyed) (k : Z * Z) :
  accumulate acc r !! k =
  if decide (r.1 = k) then Some (fadd (default 0%Q (acc !! k)) r.2)
  else acc !! k.
Proof.
  destruct r as [[wd h] m]. unfold accumulate. simpl.
  rewrite lookup_partial_alter. case_decide; subst; reflexivity.
Qed.

Lemma foldl_accumulate_lookup (frame : list Keyed) (k : Z * Z) :
  forall acc : gmap (Z * Z) Q,
  foldl accumulate acc frame !! k =
  match filter (fun r : Keyed => r.1 = k) frame with
  | [] => acc !! k
  | g => Some (foldl fadd (default 0%Q (acc !! k)) (g.*2))
  end.
Proof.
  induction frame as [|r frame IH]; intros acc; [reflexivity|].
  simpl foldl. rewrite IH, accumulate_lookup.
  rewrite filter_cons. case_decide as Hk.
  - destruct (filter _ frame); reflexivity.
  - reflexivity.
Qed.

Lemma groupby_sum_lookup (frame : list Keyed) (k : Z * Z) :
  groupby_sum frame !! k = cell_total k frame.
Proof.
  unfold groupby_sum, cell_total. rewrite foldl_accumulate_lookup.
  rewrite lookup_empty. reflexivity.
Qed.

Lemma cell_total_perm (k : Z * Z) (frame frame' : list Keyed) :
  frame ≡ₚ frame' -> cell_total k frame = cell_total k frame'.
Proof.
  intros Hp. unfold cell_total.
  assert (Hg : filter (fun r : Keyed => r.1 = k) frame
               ≡ₚ filter (fun r : Keyed => r.1 = k) frame')
    by (rewrite Hp; reflexivity).
  destruct (filter _ frame) as [|r g], (filter _ frame') as [|r' g'].
  - reflexivity.
  - apply Permutation_nil in Hg. discriminate.
  - symmetry in Hg. apply Permutation_nil in Hg. discriminate.
  - f_equal. apply foldl_fadd_perm. rewrite Hg. reflexivity.
Qed.

Lemma groupby_sum_perm (frame frame' : list Keyed) :
  frame ≡ₚ frame' -> groupby_sum frame = groupby_sum frame'.
Proof.
  intros Hp. apply map_eq. intros k.
  rewrite !groupby_sum_lookup. apply cell_total_perm, Hp.
Qed.

Lemma cell_total_None (k : Z * Z) (frame : list Keyed) :
  cell_total k frame = None <-> forall r, r ∈ frame -> r.1 <> k.
Proof.
  unfold cell_total. split.
  - intros Hn r Hr Hk.
    assert (Hin : r ∈ filter (fun r : Keyed => r.1 = k) frame)
      by (apply list_elem_of_filter; split; assumption).
    destruct (filter _ frame); [|discriminate].
    apply elem_of_nil in Hin. exact Hin.
  - intros Hall.
    destruct (filter _ frame) as [|r g] eqn:Hf; [reflexivity|].
    assert (Hin : r ∈ filter (fun r : Keyed => r.1 = k) frame)
      by (rewrite Hf; left).
    apply list_elem_of_filter in Hin. destruct Hin as [Hk Hr].
    destruct (Hall r Hr Hk).
Qed.

Lemma length_week_combinations : length week_combinations = 168%nat.
Proof. reflexivity. Qed.

Lemma week_combinations_total (d h : Z) :
  (d, h) ∈ week_combinations <-> (0 <= d <= 6 /\ 0 <= h <= 23).
Proof.
  split.
  - intros Hin. apply list_elem_of_In in Hin. vm_compute in Hin.
    repeat (destruct Hin as [Heq|Hin];
            [injection Heq as <- <-; lia|]).
    destruct Hin.
  - intros [Hd Hh]. apply list_elem_of_In.
    unfold week_combinations. apply in_flat_map. exists d. split.
    + assert (d = 0 \/ d = 1 \/ d = 2 \/ d = 3 \/ d = 4 \/ d = 5 \/ d = 6)
        as Hc by lia.
      unfold days_of_week. simpl. intuition.
    + apply in_map. unfold hours_of_day. apply in_map_iff.
      exists (Z.to_nat h). split; [lia|]. apply in_seq. lia.
Qed.

Lemma NoDup_week_combinations : NoDup week_combinations.
Proof.
  apply (bool_decide_unpack (NoDup week_combinations)).
  vm_compute. exact I.
Qed.


Lemma transform_for_time_heatmap_unfold (df : list Row) :
  transform_for_time_heatmap df =
  match sg_minutes_of df, nz_minutes_of df with
  | [], _ | _, [] => KeyError "time_bucket"
  | sg, nz =>
      Returns (merge_left (groupby_sum (map keyed_of sg))
                          (groupby_sum (map keyed_of nz)))
  end.
Proof.
  unfold transform_for_time_heatmap.
  rewrite !add_weekday_hour_unfold.
  destruct (sg_minutes_of df), (nz_minutes_of df); reflexivity.
Qed.

(** When the aggregator returns, its table is the full grid: 168 rows keyed
    by the weekday-hour pairs in product order, each cell holding the sum of
    its group or nothing when the group is empty. *)
Lemma grid_when_returned (df : list Row) (rows : list GridRow) :
  transform_for_time_heatmap df = Returns rows ->
  length rows = 168%nat /\
  map (fun r => (Day_of_Week r, Hour r)) rows = week_combinations /\
  Forall (fun r =>
    minutes_SG r = cell_total (Day_of_Week r, Hour r)
                     (map keyed_of (sg_minutes_of df)) /\
    minutes_NZ r = cell_total (Day_of_Week r, Hour r)
                     (map keyed_of (nz_minutes_of df))) rows.
Proof.
  rewrite transform_for_time_heatmap_unfold. intros Hret.
  assert (Hrows : rows = merge_left
            (groupby_sum (map keyed_of (sg_minutes_of df)))
            (groupby_sum (map keyed_of (nz_minutes_of df)))).
  { destruct (sg_minutes_of df), (nz_minutes_of df);
      try discriminate; injection Hret as <-; reflexivity. }
  clear Hret. subst rows. unfold merge_left. split; [|split].
  - rewrite length_map. apply length_week_combinations.
  - rewrite map_map. erewrite map_ext; [apply map_id|].
    intros [d h]. reflexivity.
  - apply Forall_forall. intros r Hr.
    apply list_elem_of_In, in_map_iff in Hr.
    destruct Hr as [[d h] [<- _]]. simpl.
    rewrite !groupby_sum_lookup. split; reflexivity.
Qed.

(** C3, empty input.  On an empty collection of call records the
    aggregator raises [KeyError: 'time_bucket'] instead of returning a grid
    of 168 empty cells: the frame built from no contributions has no
    [time_bucket] column. *)
Theorem empty_input_raises :
  transform_for_time_heatmap [] = KeyError "time_bucket".
Proof. reflexivity. Qed.

(** C5, grid completeness.  On the sparse input made of one half-hour call
    the aggregator returns no table at all: the splitter emits nothing for
    the call, and the aggregator raises on the empty frame. *)
Theorem sparse_input_raises :
  sg_minutes_of [same_view (at_time 10 15) (at_time 10 45)] = [] /\
  transform_for_time_heatmap [same_view (at_time 10 15) (at_time 10 45)]
    = KeyError "time_bucket".
Proof. split; vm_compute; reflexivity. Qed.



(** C9, order-independence: reordering the call records changes neither
    the outcome nor any cell of the returned table. *)
Theorem order_independence (df df' : list Row) :
  df ≡ₚ df' ->
  transform_for_time_heatmap df = transform_for_time_heatmap df'.
Proof.
  intros Hp. rewrite !transform_for_time_heatmap_unfold.
  assert (Hsg : sg_minutes_of df ≡ₚ sg_minutes_of df')
    by (apply Permutation_flat_map, Hp).
  assert (Hnz : nz_minutes_of df ≡ₚ nz_minutes_of df')
    by (apply Permutation_flat_map, Hp).
  assert (Hgs : groupby_sum (map keyed_of (sg_minutes_of df)) =
                groupby_sum (map keyed_of (sg_minutes_of df')))
    by (apply groupby_sum_perm, Permutation_map, Hsg).
  assert (Hgn : groupby_sum (map keyed_of (nz_minutes_of df)) =
                groupby_sum (map keyed_of (nz_minutes_of df')))
    by (apply groupby_sum_perm, Permutation_map, Hnz).
  destruct (sg_minutes_of df) as [|a sg], (sg_minutes_of df') as [|a' sg'];
    try (apply Permutation_nil in Hsg; discriminate);
    try (symmetry in Hsg; apply Permutation_nil in Hsg; discriminate);
    [reflexivity|].
  destruct (nz_minutes_of df) as [|b nz], (nz_minutes_of df') as [|b' nz'];
    try (apply Permutation_nil in Hnz; discriminate);
    try (symmetry in Hnz; apply Permutation_nil in Hnz; discriminate);
    [reflexivity|].
  rewrite Hgs, Hgn. reflexivity.
Qed.

Lemma order_independence_witness :
  transform_for_time_heatmap
    [same_view (at_time 9 0) (at_time 11 30);
     same_view (at_time 10 0) (at_time 11 0)] =
  transform_for_time_heatmap
    [same_view (at_time 10 0) (at_time 11 0);
     same_view (at_time 9 0) (at_time 11 30)].
Proof.
  apply (order_independence
           [same_view (at_time 9 0) (at_time 11 30);
            same_view (at_time 10 0) (at_time 11 0)]).
  apply perm_swap.
Defined.

(** * Further properties of the splitter *)

Lemma minutes_sixty (s e : Timestamp) (tz : string) (c : Contribution) :
  In c (split_call_by_hour s e tz) -> minutes c = 60%Q.
Proof.
  rewrite split_call_by_hour_closed. intros Hc.
  apply in_map_iff in Hc. destruct Hc as [i [<- _]]. reflexivity.
Qed.

Lemma split_call_by_hour_length (s e : Timestamp) (tz : string) :
  length (split_call_by_hour s e tz) = whole_hours s e.
Proof.
  rewrite split_call_by_hour_closed, length_map, length_seq. reflexivity.
Qed.

(** A call of one hour or more contributes something. *)
Lemma split_call_by_hour_long (s e : Timestamp) (tz : string) :
  ns_per_hour <= e - s -> split_call_by_hour s e tz <> [].
Proof.
  intros Hge Hnil.
  assert (Hlen : length (split_call_by_hour s e tz) = 0%nat)
    by (rewrite Hnil; reflexivity).
  rewrite split_call_by_hour_length in Hlen. unfold whole_hours in Hlen.
  assert (Hh : 0 < ns_per_hour) by reflexivity.
  assert (1 <= (e - s) / ns_per_hour)
    by (apply Z.div_le_lower_bound; lia).
  lia.
Qed.

(** X1.  The splitter returns as many contributions as whole hours fit between
    start and end; the [i]-th one is sixty minutes at [start + i] hours. *)
Theorem split_call_by_hour_nth (s e : Timestamp) (tz : string) :
  length (split_call_by_hour s e tz)
    = Z.to_nat ((e - s) / ns_per_hour) /\
  forall i : nat, (i < Z.to_nat ((e - s) / ns_per_hour))%nat ->
    split_call_by_hour s e tz !! i =
    Some (mkContribution (s + Z.of_nat i * ns_per_hour) 60 tz).
Proof.
  split; [apply split_call_by_hour_length|].
  rewrite split_call_by_hour_closed. fold (whole_hours s e).
  intros i Hi.
  change (map ?f ?l) with (f <$> l).
  rewrite list_lookup_fmap, lookup_seq_lt by exact Hi. reflexivity.
Qed.

(** X2.  Nothing is emitted exactly when less than one hour separates start and
    end. *)
Theorem split_call_by_hour_nil_iff (s e : Timestamp) (tz : string) :
  split_call_by_hour s e tz = [] <-> e - s < ns_per_hour.
Proof.
  split.
  - intros Hnil.
    destruct (Z_lt_le_dec (e - s) ns_per_hour) as [Hlt|Hge]; [exact Hlt|].
    destruct (split_call_by_hour_long s e tz Hge Hnil).
  - apply split_call_by_hour_short.
Qed.

(** X5.  Moving a call by any amount of time moves its buckets by the same
    amount and changes nothing else. *)
Theorem split_call_by_hour_shift (s e d : Timestamp) (tz : string) :
  split_call_by_hour (s + d) (e + d) tz =
  map (shift_bucket d) (split_call_by_hour s e tz).
Proof.
  rewrite !split_call_by_hour_closed, map_map.
  replace (whole_hours (s + d) (e + d)) with (whole_hours s e)
    by (unfold whole_hours; f_equal; f_equal; lia).
  apply map_ext. intros i. unfold shift_bucket, nth_point. simpl.
  f_equal. lia.
Qed.

(** X6.  The hour covered by each contribution lies inside the call: its bucket
    is not before the start and ends, one hour later, not after the end. *)
Theorem bucket_hour_within_call (s e : Timestamp) (tz : string)
    (c : Contribution) :
  In c (split_call_by_hour s e tz) ->
  s <= time_bucket c /\ time_bucket c + ns_per_hour <= e.
Proof.
  rewrite split_call_by_hour_closed. intros Hc.
  apply in_map_iff in Hc. destruct Hc as [i [<- Hi]]. simpl.
  apply in_seq in Hi.
  pose proof (nth_point_fits s e i ltac:(lia)) as Hfit.
  unfold nth_point in *. assert (0 < ns_per_hour) by reflexivity.
  split; nia.
Qed.

Lemma bucket_hour_within_call_witness :
  at_time 10 30 <= at_time 11 30 /\
  at_time 11 30 + ns_per_hour <= at_time 12 45.
Proof.
  apply (bucket_hour_within_call (at_time 10 30) (at_time 12 45) "SG"
           (mkContribution (at_time 11 30) 60 "SG")).
  vm_compute. right. left. reflexivity.
Defined.

(** X7.  Every bucket sits at the same offset inside its wall-clock hour as the
    call's start, so the buckets are on hour boundaries exactly when the
    start is. *)
Theorem bucket_offset_is_start_offset (s e : Timestamp) (tz : string)
    (c : Contribution) :
  In c (split_call_by_hour s e tz) ->
  offset_in_hour (time_bucket c) = offset_in_hour s.
Proof.
  rewrite split_call_by_hour_closed. intros Hc.
  apply in_map_iff in Hc. destruct Hc as [i [<- _]]. simpl.
  unfold offset_in_hour, nth_point. apply Z_mod_plus_full.
Qed.

Lemma bucket_offset_is_start_offset_witness :
  offset_in_hour (at_time 11 30) = offset_in_hour (at_time 10 30).
Proof.
  apply (bucket_offset_is_start_offset (at_time 10 30) (at_time 12 45) "SG"
           (mkContribution (at_time 11 30) 60 "SG")).
  vm_compute. right. left. reflexivity.
Defined.

Lemma duration_minutes_value (s e : Timestamp) :
  (duration_minutes s e == (e - s) # 60000000000)%Q.
Proof.
  unfold duration_minutes, fdiv, total_seconds. rewrite !Qred_correct.
  unfold Qeq, Qdiv, Qmult, Qinv. simpl. lia.
Qed.

Lemma whole_hours_bounds (s e : Timestamp) :
  s <= e ->
  Z.of_nat (whole_hours s e) * ns_per_hour <= e - s
    < Z.of_nat (whole_hours s e) * ns_per_hour + ns_per_hour.
Proof.
  intros Hle. unfold whole_hours.
  assert (Hh : 0 < ns_per_hour) by reflexivity.
  pose proof (Z.div_pos (e - s) ns_per_hour ltac:(lia) Hh) as Hpos.
  rewrite Z2Nat.id by exact Hpos.
  pose proof (Z.div_mod (e - s) ns_per_hour ltac:(lia)) as Hdm.
  pose proof (Z.mod_pos_bound (e - s) ns_per_hour Hh) as Hmod.
  lia.
Qed.

(** X3.  The splitter never invents minutes and loses less than an hour: for a
    call that does not end before it starts, the emitted minutes are at
    most the call's duration and fall short of it by less than 60. *)
Theorem minutes_lost_bound (s e : Timestamp) (tz : string) :
  s <= e ->
  (total_minutes (split_call_by_hour s e tz) <= duration_minutes s e)%Q /\
  (duration_minutes s e < total_minutes (split_call_by_hour s e tz) + 60)%Q.
Proof.
  intros Hle. rewrite total_minutes_whole_hours, duration_minutes_value.
  pose proof (whole_hours_bounds s e Hle) as Hb.
  unfold ns_per_hour, ns_per_second in Hb.
  unfold Qle, Qlt, Qplus, inject_Z. simpl. lia.
Qed.

Lemma minutes_lost_bound_witness :
  (total_minutes (split_call_by_hour (at_time 10 30) (at_time 12 15) "SG")
     <= duration_minutes (at_time 10 30) (at_time 12 15))%Q /\
  (duration_minutes (at_time 10 30) (at_time 12 15)
     < total_minutes (split_call_by_hour (at_time 10 30) (at_time 12 15) "SG")
       + 60)%Q.
Proof.
  apply (minutes_lost_bound (at_time 10 30) (at_time 12 15) "SG").
  vm_compute. discriminate.
Defined.

(** X4.  Minutes are conserved exactly for the calls that last a whole number
    of hours. *)
Theorem conservation_iff_whole_hours (s e : Timestamp) (tz : string) :
  s <= e ->
  (total_minutes (split_call_by_hour s e tz) == duration_minutes s e)%Q <->
  (e - s) mod ns_per_hour = 0.
Proof.
  intros Hle. rewrite total_minutes_whole_hours, duration_minutes_value.
  assert (Hh : 0 < ns_per_hour) by reflexivity.
  pose proof (Z.div_mod (e - s) ns_per_hour ltac:(lia)) as Hdm.
  pose proof (Z.div_pos (e - s) ns_per_hour ltac:(lia) Hh) as Hpos.
  assert (Hwh : Z.of_nat (whole_hours s e) = (e - s) / ns_per_hour)
    by (unfold whole_hours; apply Z2Nat.id, Hpos).
  unfold ns_per_hour, ns_per_second in *.
  unfold Qeq, inject_Z. simpl. lia.
Qed.

Lemma conservation_iff_whole_hours_witness :
  (total_minutes (split_call_by_hour (at_time 9 20) (at_time 12 20) "NZ")
     == duration_minutes (at_time 9 20) (at_time 12 20))%Q <->
  (at_time 12 20 - at_time 9 20) mod ns_per_hour = 0.
Proof.
  apply (conservation_iff_whole_hours (at_time 9 20) (at_time 12 20) "NZ").
  vm_compute. discriminate.
Defined.

(** * Further properties of the aggregator *)

Lemma Weekday_hour_range (t : Timestamp) :
  0 <= Weekday_of t <= 6 /\ 0 <= hour t <= 23.
Proof.
  unfold Weekday_of, hour.
  pose proof (Z.mod_pos_bound (dayofweek t + 1) 7 ltac:(lia)) as Hwd.
  assert (Hd : 0 < ns_per_day) by reflexivity.
  assert (Hh : 0 < ns_per_hour) by reflexivity.
  pose proof (Z.mod_pos_bound t ns_per_day Hd) as Hm.
  split; [lia|]. split.
  - apply Z.div_pos; lia.
  - assert (t mod ns_per_day / ns_per_hour < 24); [|lia].
    apply Z.div_lt_upper_bound; [exact Hh|].
    change (ns_per_hour * 24) with ns_per_day. lia.
Qed.

(** X8.  Whatever the timestamp, its weekday and hour form one of the 168 keys
    of the grid, so the left merges never leave a group out. *)
Theorem key_in_grid (t : Timestamp) :
  (Weekday_of t, hour t) ∈ week_combinations.
Proof. apply week_combinations_total, Weekday_hour_range. Qed.



(** X10.  The table the aggregator returns is complete: 168 rows, keyed by the
    pairs weekday 0-6, hour 0-23 in product order, and each key once. *)
Theorem returned_grid_complete (df : list Row) (rows : list GridRow) :
  transform_for_time_heatmap df = Returns rows ->
  length rows = 168%nat /\
  NoDup (map (fun r => (Day_of_Week r, Hour r)) rows) /\
  forall d h, (d, h) ∈ map (fun r => (Day_of_Week r, Hour r)) rows <->
              (0 <= d <= 6 /\ 0 <= h <= 23).
Proof.
  intros Hret. destruct (grid_when_returned df rows Hret) as [Hlen [-> _]].
  split; [exact Hlen|]. split.
  - apply NoDup_week_combinations.
  - apply week_combinations_total.
Qed.

Lemma returned_grid_complete_witness :
  exists rows,
    transform_for_time_heatmap
      [same_view (at_time 10 30) (at_time 12 15)] = Returns rows /\
    length rows = 168%nat /\
    NoDup (map (fun r => (Day_of_Week r, Hour r)) rows).
Proof.
  destruct (transform_for_time_heatmap
              [same_view (at_time 10 30) (at_time 12 15)])
    as [rows|key] eqn:Hret; [|vm_compute in Hret; discriminate Hret].
  exists rows. split; [reflexivity|].
  destruct (returned_grid_complete
              [same_view (at_time 10 30) (at_time 12 15)] rows Hret)
    as [Hlen [Hnd _]].
  split; assumption.
Defined.

Lemma fsum_all_sixty (l : list Q) :
  Forall (fun m => m = 60%Q) l ->
  fsum l = inject_Z (60 * Z.of_nat (length l)).
Proof.
  intros Hall.
  assert (Hl : l = repeat 60%Q (length l)).
  { induction Hall as [|m l -> _ IH]; [reflexivity|].
    simpl. f_equal. exact IH. }
  rewrite Hl at 1. apply (fsum_sixties 0).
Qed.

Lemma cell_total_all_sixty (k : Z * Z) (frame : list Keyed) :
  Forall (fun r : Keyed => r.2 = 60%Q) frame ->
  cell_total k frame =
  match cell_count k frame with
  | O => None
  | S n => Some (inject_Z (60 * Z.of_nat (S n)))
  end.
Proof.
  intros Hall. unfold cell_total, cell_count.
  assert (Hg : Forall (fun m => m = 60%Q)
                 ((filter (fun r : Keyed => r.1 = k) frame).*2)).
  { apply Forall_fmap, Forall_forall. intros r Hr.
    apply list_elem_of_filter in Hr. destruct Hr as [_ Hr].
    rewrite Forall_forall in Hall. exact (Hall r Hr). }
  destruct (filter _ frame) as [|r g] eqn:Hf; [reflexivity|].
  rewrite (fsum_all_sixty _ Hg). rewrite length_fmap. reflexivity.
Qed.

Lemma keyed_minutes_sixty (df : list Row) :
  Forall (fun r : Keyed => r.2 = 60%Q) (map keyed_of (sg_minutes_of df)) /\
  Forall (fun r : Keyed => r.2 = 60%Q) (map keyed_of (nz_minutes_of df)).
Proof.
  split; apply Forall_forall; intros r Hr;
    apply list_elem_of_In, in_map_iff in Hr;
    destruct Hr as [c [<- Hc]]; apply in_flat_map in Hc;
    destruct Hc as [row [_ Hc]]; simpl; eapply minutes_sixty; exact Hc.
Qed.

(** X11.  Every cell of a returned table is either empty, when no contribution
    of the view falls in it, or holds sixty minutes for each contribution
    that does: a filled cell is never zero. *)
Theorem cell_is_sixty_per_contribution (df : list Row)
    (rows : list GridRow) (r : GridRow) :
  transform_for_time_heatmap df = Returns rows ->
  r ∈ rows ->
  minutes_SG r =
    match cell_count (Day_of_Week r, Hour r)
            (map keyed_of (sg_minutes_of df)) with
    | O => None
    | S n => Some (inject_Z (60 * Z.of_nat (S n)))
    end /\
  minutes_NZ r =
    match cell_count (Day_of_Week r, Hour r)
            (map keyed_of (nz_minutes_of df)) with
    | O => None
    | S n => Some (inject_Z (60 * Z.of_nat (S n)))
    end.
Proof.
  intros Hret Hr.
  destruct (grid_when_returned df rows Hret) as [_ [_ Hcells]].
  rewrite Forall_forall in Hcells. destruct (Hcells r Hr) as [-> ->].
  destruct (keyed_minutes_sixty df) as [Hsg Hnz].
  split; apply cell_total_all_sixty; assumption.
Qed.

Lemma cell_is_sixty_per_contribution_witness :
  minutes_SG (mkGridRow 1 9 (Some 120%Q) (Some 120%Q)) = Some 120%Q /\
  minutes_NZ (mkGridRow 1 9 (Some 120%Q) (Some 120%Q)) = Some 120%Q.
Proof.
  pose (df := [same_view (at_time 9 0) (at_time 10 0);
               same_view (at_time 9 20) (at_time 10 40)]).
  destruct (transform_for_time_heatmap df) as [rows|key] eqn:Hret;
    [|vm_compute in Hret; discriminate Hret].
  assert (Hin : mkGridRow 1 9 (Some 120%Q) (Some 120%Q) ∈ rows).
  { vm_compute in Hret. injection Hret as <-.
    apply list_elem_of_In. do 33 right. left. reflexivity. }
  destruct (cell_is_sixty_per_contribution df rows _ Hret Hin) as [Hs Hn].
  split; [rewrite Hs | rewrite Hn]; vm_compute; reflexivity.
Defined.

(** ** The merge keeps every minute of the frame *)

Lemma foldl_fadd_Qsum (l : list Q) :
  forall a, (foldl fadd a l == a + Qsum l)%Q.
Proof.
  induction l as [|x l IH]; intros a; simpl.
  - ring.
  - rewrite IH. unfold fadd. rewrite Qred_correct. ring.
Qed.

Lemma fsum_Qsum (l : list Q) : (fsum l == Qsum l)%Q.
Proof. unfold fsum. rewrite foldl_fadd_Qsum. ring. Qed.

Lemma foldl_fadd_canonical (l : list Q) :
  forall a, canonical a -> canonical (foldl fadd a l).
Proof.
  induction l as [|x l IH]; intros a Ha; simpl; [exact Ha|].
  apply IH. unfold canonical, fadd. apply Qred_complete, Qred_correct.
Qed.

Lemma fsum_canonical (l : list Q) : canonical (fsum l).
Proof. apply foldl_fadd_canonical. reflexivity. Qed.

Lemma canonical_eq (x y : Q) :
  canonical x -> canonical y -> (x == y)%Q -> x = y.
Proof.
  unfold canonical. intros Hx Hy Heq.
  rewrite <- Hx, <- Hy. apply Qred_complete, Heq.
Qed.

Lemma Qsum_map_ext {A} (f g : A -> Q) (l : list A) :
  (forall x, (f x == g x)%Q) -> (Qsum (map f l) == Qsum (map g l))%Q.
Proof.
  intros Hfg. induction l as [|x l IH]; simpl; [reflexivity|].
  rewrite IH, Hfg. reflexivity.
Qed.

Lemma Qsum_map_plus {A} (f g : A -> Q) (l : list A) :
  (Qsum (map (fun x => f x + g x) l) == Qsum (map f l) + Qsum (map g l))%Q.
Proof.
  induction l as [|x l IH]; simpl; [ring|]. rewrite IH. ring.
Qed.

Lemma Qsum_share_absent (r : Keyed) (keys : list (Z * Z)) :
  r.1 ∉ keys -> (Qsum (map (fun k => share k r) keys) == 0)%Q.
Proof.
  induction keys as [|k keys IH]; intros Hnin; simpl; [reflexivity|].
  apply not_elem_of_cons in Hnin. destruct Hnin as [Hne Hnin].
  rewrite (IH Hnin). unfold share. rewrite decide_False by exact Hne. ring.
Qed.

Lemma Qsum_share_present (r : Keyed) (keys : list (Z * Z)) :
  NoDup keys -> r.1 ∈ keys ->
  (Qsum (map (fun k => share k r) keys) == r.2)%Q.
Proof.
  induction 1 as [|k keys Hnin Hnd IH]; intros Hin.
  - apply elem_of_nil in Hin. destruct Hin.
  - simpl. unfold share at 1. case_decide as Hk.
    + subst k. rewrite (Qsum_share_absent r keys Hnin). ring.
    + apply elem_of_cons in Hin. destruct Hin as [Heq|Hin]; [congruence|].
      rewrite (IH Hin). ring.
Qed.

Lemma cell_minutes_share (k : Z * Z) (frame : list Keyed) :
  (cell_minutes (cell_total k frame) ==
   Qsum (map (fun r => share k r) frame))%Q.
Proof.
  unfold cell_minutes, cell_total.
  assert (Hg : (Qsum ((filter (fun r : Keyed => r.1 = k) frame).*2) ==
                Qsum (map (fun r => share k r) frame))%Q).
  { induction frame as [|r frame IH]; [reflexivity|].
    rewrite filter_cons. simpl map. unfold share at 1.
    case_decide; simpl; rewrite IH; ring. }
  destruct (filter _ frame) as [|r g]; [exact Hg|].
  simpl default. rewrite fsum_Qsum. exact Hg.
Qed.

Lemma grid_total_Qsum (keys : list (Z * Z)) (frame : list Keyed) :
  NoDup keys -> Forall (fun r : Keyed => r.1 ∈ keys) frame ->
  (Qsum (map (fun k => cell_minutes (cell_total k frame)) keys) ==
   Qsum (frame.*2))%Q.
Proof.
  intros Hnd Hall.
  rewrite (Qsum_map_ext _ (fun k => Qsum (map (fun r => share k r) frame)))
    by (intros k; apply cell_minutes_share).
  induction Hall as [|r frame Hr _ IH]; simpl.
  - induction keys as [|k keys IHk]; simpl; [reflexivity|].
    apply NoDup_cons in Hnd. rewrite (IHk (proj2 Hnd)). ring.
  - rewrite (Qsum_map_plus (fun k => share k r)).
    rewrite IH, (Qsum_share_present r keys Hnd Hr). reflexivity.
Qed.

(** Summing the cells of the grid over any duplicate-free key list that
    covers the frame's keys gives the sum of the frame's minutes. *)
Lemma grid_total (keys : list (Z * Z)) (frame : list Keyed) :
  NoDup keys -> Forall (fun r : Keyed => r.1 ∈ keys) frame ->
  fsum (map (fun k => cell_minutes (cell_total k frame)) keys) =
  fsum (frame.*2).
Proof.
  intros Hnd Hall. apply canonical_eq; try apply fsum_canonical.
  rewrite !fsum_Qsum. apply grid_total_Qsum; assumption.
Qed.

Lemma keyed_in_grid (cs : list Contribution) :
  Forall (fun r : Keyed => r.1 ∈ week_combinations) (map keyed_of cs).
Proof.
  apply Forall_forall. intros r Hr.
  apply list_elem_of_In, in_map_iff in Hr. destruct Hr as [c [<- _]].
  apply week_combinations_total, Weekday_hour_range.
Qed.

(** X12.  The aggregation neither loses nor double-counts minutes: in each view,
    the cells of a returned table add up to the minutes of all the
    contributions of that view. *)
Theorem aggregation_conserves_minutes (df : list Row)
    (rows : list GridRow) :
  transform_for_time_heatmap df = Returns rows ->
  fsum (map (fun r => cell_minutes (minutes_SG r)) rows)
    = total_minutes (sg_minutes_of df) /\
  fsum (map (fun r => cell_minutes (minutes_NZ r)) rows)
    = total_minutes (nz_minutes_of df).
Proof.
  rewrite transform_for_time_heatmap_unfold. intros Hret.
  assert (Hrows : rows = merge_left
            (groupby_sum (map keyed_of (sg_minutes_of df)))
            (groupby_sum (map keyed_of (nz_minutes_of df)))).
  { destruct (sg_minutes_of df), (nz_minutes_of df);
      try discriminate; injection Hret as <-; reflexivity. }
  clear Hret. subst rows. unfold merge_left, total_minutes.
  rewrite !map_map. split.
  - rewrite (map_ext _ (fun k => cell_minutes
               (cell_total k (map keyed_of (sg_minutes_of df)))))
      by (intros k; cbn [minutes_SG]; rewrite groupby_sum_lookup;
          reflexivity).
    rewrite (grid_total _ _ NoDup_week_combinations (keyed_in_grid _)).
    f_equal. change (?l.*2) with (map snd l). rewrite map_map. reflexivity.
  - rewrite (map_ext _ (fun k => cell_minutes
               (cell_total k (map keyed_of (nz_minutes_of df)))))
      by (intros k; cbn [minutes_NZ]; rewrite groupby_sum_lookup;
          reflexivity).
    rewrite (grid_total _ _ NoDup_week_combinations (keyed_in_grid _)).
    f_equal. change (?l.*2) with (map snd l). rewrite map_map. reflexivity.
Qed.

Lemma aggregation_conserves_minutes_witness :
  exists rows,
    transform_for_time_heatmap
      [same_view (at_time 9 0) (at_time 11 30);
       same_view (at_time 22 10) (at_time 23 50)] = Returns rows /\
    fsum (map (fun r => cell_minutes (minutes_SG r)) rows) = 180%Q.
Proof.
  pose (df := [same_view (at_time 9 0) (at_time 11 30);
               same_view (at_time 22 10) (at_time 23 50)]).
  destruct (transform_for_time_heatmap df) as [rows|key] eqn:Hret;
    [|vm_compute in Hret; discriminate Hret].
  exists rows. split; [exact Hret|].
  destruct (aggregation_conserves_minutes df rows Hret) as [Hsg _].
  rewrite Hsg. vm_compute. reflexivity.
Defined.

(** * The dashboard script *)

Lemma dayofweek_minus_days (date : Timestamp) (n : Z) :
  dayofweek (date - to_timedelta_days n) = (dayofweek date - n) mod 7.
Proof.
  unfold dayofweek, to_timedelta_days.
  replace (date - n * ns_per_day) with (date + (- n) * ns_per_day) by lia.
  rewrite Z.div_add by discriminate.
  generalize (date / ns_per_day). intros q.
  Z.div_mod_to_equations. lia.
Qed.

Lemma dayofweek_range (date : Timestamp) : 0 <= dayofweek date <= 6.
Proof.
  unfold dayofweek.
  pose proof (Z.mod_pos_bound (date / ns_per_day + 3) 7 ltac:(lia)). lia.
Qed.

(** X13.  The calendar heat map's week start is always a Sunday, at most six
    whole days before the date, and a Sunday is its own week start. *)
Theorem week_start_is_sunday (date : Timestamp) :
  dayofweek (Week_Start_Date date) = 6 /\
  (exists n, 0 <= n <= 6 /\ date - Week_Start_Date date = n * ns_per_day) /\
  (dayofweek date = 6 -> Week_Start_Date date = date) /\
  Week_Start_Date (Week_Start_Date date) = Week_Start_Date date.
Proof.
  pose proof (dayofweek_range date) as Hr.
  assert (Hsun : dayofweek (Week_Start_Date date) = 6).
  { unfold Week_Start_Date. rewrite dayofweek_minus_days.
    unfold Weekday_of. Z.div_mod_to_equations. lia. }
  assert (Hfix : forall t, dayofweek t = 6 -> Week_Start_Date t = t).
  { intros t Ht. unfold Week_Start_Date, Weekday_of, to_timedelta_days.
    rewrite Ht. change ((6 + 1) mod 7) with 0. lia. }
  split; [exact Hsun|]. split; [|split].
  - exists (Weekday_of date). split.
    + unfold Weekday_of. Z.div_mod_to_equations. lia.
    + unfold Week_Start_Date, to_timedelta_days. lia.
  - apply Hfix.
  - apply Hfix, Hsun.
Qed.

(** X14.  The trend chart's weekly interval is always a Sunday strictly before
    the date, one to seven days earlier: it is the calendar's week start,
    except for a Sunday, which goes to the Sunday of the week before. *)
Theorem trend_week_interval_is_earlier_sunday (date : Timestamp) :
  dayofweek (trend_week_interval date) = 6 /\
  (exists n, 1 <= n <= 7 /\
             date - trend_week_interval date = n * ns_per_day) /\
  trend_week_interval date =
    if dayofweek date =? 6
    then Week_Start_Date date - to_timedelta_days 7
    else Week_Start_Date date.
Proof.
  pose proof (dayofweek_range date) as Hr.
  split; [|split].
  - unfold trend_week_interval. rewrite dayofweek_minus_days.
    Z.div_mod_to_equations. lia.
  - exists (dayofweek date + 1). split; [lia|].
    unfold trend_week_interval, to_timedelta_days. lia.
  - unfold trend_week_interval, Week_Start_Date, Weekday_of,
      to_timedelta_days.
    destruct (Z.eqb_spec (dayofweek date) 6) as [->|Hne].
    + change ((6 + 1) mod 7) with 0. lia.
    + rewrite Z.mod_small by lia. reflexivity.
Qed.

(** X15.  The day name given to a weekday number is the name of the calendar
    day the timestamp falls on, and the lookup never leaves the list. *)
Theorem day_name_of_weekday (t : Timestamp) :
  getitem all_days (Weekday_of t) =
  Some (match dayofweek t with
        | 0 => "Mon" | 1 => "Tue" | 2 => "Wed" | 3 => "Thu"
        | 4 => "Fri" | 5 => "Sat" | _ => "Sun"
        end).
Proof.
  pose proof (dayofweek_range t) as Hr. unfold Weekday_of.
  assert (Hc : dayofweek t = 0 \/ dayofweek t = 1 \/ dayofweek t = 2 \/
               dayofweek t = 3 \/ dayofweek t = 4 \/ dayofweek t = 5 \/
               dayofweek t = 6) by lia.
  destruct Hc as [-> | [-> | [-> | [-> | [-> | [-> | ->]]]]]];
    reflexivity.
Qed.

(** X16.  Every row of a table returned by the aggregator gets a day name: the
    lookup [all_days[x]] of the script cannot raise, and the 24 rows of
    weekday [d] all get the [d]-th name. *)
Theorem day_name_defined (df : list Row) (rows : list GridRow)
    (r : GridRow) :
  transform_for_time_heatmap df = Returns rows ->
  r ∈ rows ->
  Day_Name r = all_days !! Z.to_nat (Day_of_Week r) /\
  is_Some (Day_Name r).
Proof.
  intros Hret Hr.
  destruct (grid_when_returned df rows Hret) as [_ [Hkeys _]].
  assert (Hk : (Day_of_Week r, Hour r)
               ∈ map (fun r => (Day_of_Week r, Hour r)) rows).
  { apply list_elem_of_In, in_map_iff. exists r. split; [reflexivity|].
    apply list_elem_of_In, Hr. }
  rewrite Hkeys in Hk.
  apply week_combinations_total in Hk. destruct Hk as [Hd _].
  unfold Day_Name, getitem.
  destruct (Z.leb_spec 0 (Day_of_Week r)) as [_|Hneg]; [|lia].
  split; [reflexivity|].
  apply lookup_lt_is_Some. simpl. lia.
Qed.

Lemma day_name_defined_witness :
  Day_Name (mkGridRow 1 9 (Some 120%Q) (Some 120%Q)) = Some "Mon".
Proof.
  pose (df := [same_view (at_time 9 0) (at_time 10 0);
               same_view (at_time 9 20) (at_time 10 40)]).
  destruct (transform_for_time_heatmap df) as [rows|key] eqn:Hret;
    [|vm_compute in Hret; discriminate Hret].
  assert (Hin : mkGridRow 1 9 (Some 120%Q) (Some 120%Q) ∈ rows).
  { vm_compute in Hret. injection Hret as <-.
    apply list_elem_of_In. do 33 right. left. reflexivity. }
  destruct (day_name_defined df rows _ Hret Hin) as [Hname _].
  rewrite Hname. reflexivity.
Defined.

Lemma hour12_range (h : Z) : 1 <= hour12 h <= 12.
Proof.
  unfold hour12. pose proof (Z.mod_pos_bound h 12 ltac:(lia)).
  destruct (Z.eqb_spec (h mod 12) 0); lia.
Qed.

(** X17.  The hour labels use the twelve-hour clock without loss: the number
    shown is between 1 and 12, and together with the AM/PM half it gives
    the hour back. *)
Theorem hour12_round_trip (h : Z) :
  0 <= h < 24 ->
  1 <= hour12 h <= 12 /\
  h = hour12 h mod 12 + (if h <? 12 then 0 else 12).
Proof.
  intros Hh. split; [apply hour12_range|].
  unfold hour12.
  destruct (Z.eqb_spec (h mod 12) 0) as [H0|Hn0];
    destruct (Z.ltb_spec h 12);
    Z.div_mod_to_equations; lia.
Qed.

Lemma hour12_round_trip_witness :
  1 <= hour12 0 <= 12 /\ 0 = hour12 0 mod 12 + (if 0 <? 12 then 0 else 12).
Proof. apply (hour12_round_trip 0). lia. Defined.

Lemma ticktext_NoDup : NoDup ticktext.
Proof. apply (bool_decide_unpack (NoDup ticktext)). vm_compute. exact I. Qed.

Lemma ticktext_lookup (h : Z) :
  0 <= h < 24 -> ticktext !! Z.to_nat h = Some (tick_label h).
Proof.
  intros Hh. unfold ticktext. change (map ?f ?l) with (f <$> l).
  rewrite !list_lookup_fmap, lookup_seq_lt by lia. simpl.
  rewrite Z2Nat.id by lia. reflexivity.
Qed.

(** X18.  No two hours of the day share a tick label on the hour axis. *)
Theorem tick_label_injective (h1 h2 : Z) :
  0 <= h1 < 24 -> 0 <= h2 < 24 ->
  tick_label h1 = tick_label h2 -> h1 = h2.
Proof.
  intros H1 H2 Heq.
  pose proof (ticktext_lookup h1 H1) as L1.
  pose proof (ticktext_lookup h2 H2) as L2.
  rewrite <- Heq in L2.
  pose proof (NoDup_lookup _ _ _ _ ticktext_NoDup L1 L2) as Hi.
  lia.
Qed.

Lemma tick_label_injective_witness : hour (at_time 12 0) = 12.
Proof.
  apply (tick_label_injective (hour (at_time 12 0)) 12);
    vm_compute; first [reflexivity | split; [discriminate | reflexivity]].
Defined.

(** ** Instances of the properties above on concrete calls *)

Lemma split_call_by_hour_nth_witness :
  split_call_by_hour (at_time 10 30) (at_time 12 45) "SG" !! 1%nat =
  Some (mkContribution (at_time 10 30 + Z.of_nat 1 * ns_per_hour) 60 "SG").
Proof.
  apply (proj2 (split_call_by_hour_nth (at_time 10 30) (at_time 12 45) "SG")).
  vm_compute. lia.
Defined.

Lemma split_call_by_hour_nil_iff_witness :
  split_call_by_hour (at_time 10 15) (at_time 11 5) "NZ" = [].
Proof.
  apply (proj2 (split_call_by_hour_nil_iff
                  (at_time 10 15) (at_time 11 5) "NZ")).
  vm_compute. reflexivity.
Defined.


Lemma week_start_is_sunday_witness :
  dayofweek (Week_Start_Date (mk 2024 1 10 0 0 0)) = 6 /\
  Week_Start_Date (mk 2024 1 7 0 0 0) = mk 2024 1 7 0 0 0.
Proof.
  split.
  - apply (proj1 (week_start_is_sunday (mk 2024 1 10 0 0 0))).
  - apply (proj1 (proj2 (proj2 (week_start_is_sunday (mk 2024 1 7 0 0 0))))).
    vm_compute. reflexivity.
Defined.
